(** * Study Helper Bot (src/main.py): a shallow embedding of its handlers

    The bot keeps a process-wide dictionary [user_tasks : Dict[int, List[str]]],
    modelled as a [gmap Z (list string)]. Each handler is a function of its
    inputs ([context.args], the user or chat id, the task map) to the replies
    it sends and the jobs it hands to the transport's job queue. A Rocq
    [string] holds the UTF-8 encoding of a Python [str]. [str.strip] is
    modelled on ASCII whitespace: the transport splits the message on all
    whitespace before a handler sees [context.args]. [pomodoro_command] and
    [tasks_done_command] read their first argument as ASCII;
    [pomodoro_command_py] and [tasks_done_command_py] read it with Python's
    Unicode-aware [str.isdigit()] and [int()], and coincide with them on
    ASCII arguments. *)

From Stdlib Require Import String Ascii.
From Stdlib Require Import Numbers.DecimalString Numbers.DecimalNat.
From stdpp Require Import base gmap list strings.

Local Open Scope string_scope.

(* ------------------------------------------------------------------ *)
(** ** Python string helpers *)

(** [c.isdigit()] on one ASCII character. *)
Definition is_digit_char (c : ascii) : bool :=
  let n := nat_of_ascii c in ((48 <=? n) && (n <=? 57))%nat.

(** [s.isdigit()]: non-empty and every character a digit. *)
Fixpoint all_digits (s : string) : bool :=
  match s with
  | EmptyString => true
  | String c s' => is_digit_char c && all_digits s'
  end.

Definition isdigit (s : string) : bool :=
  match s with
  | EmptyString => false
  | _ => all_digits s
  end.

(** [int(s)] on a string of decimal digits. *)
Fixpoint int_acc (acc : nat) (s : string) : nat :=
  match s with
  | EmptyString => acc
  | String c s' => int_acc (acc * 10 + (nat_of_ascii c - 48))%nat s'
  end.

Definition int_of_string (s : string) : nat := int_acc 0 s.

(** [str(n)] / [f"{n}"] of a non-negative integer. *)
Definition str_nat (n : nat) : string :=
  NilEmpty.string_of_uint (Nat.to_uint n).

(** [c.isspace()] on one ASCII character: \t \n \v \f \r, \x1c-\x1f, space. *)
Definition is_space (c : ascii) : bool :=
  let n := nat_of_ascii c in
  (((9 <=? n) && (n <=? 13)) || ((28 <=? n) && (n <=? 32)))%nat.

(** [s.lstrip()]. *)
Fixpoint lstrip (s : string) : string :=
  match s with
  | EmptyString => EmptyString
  | String c s' => if is_space c then lstrip s' else s
  end.

(** [s.rstrip()]: a trailing run of whitespace is dropped. *)
Fixpoint rstrip (s : string) : string :=
  match s with
  | EmptyString => EmptyString
  | String c s' =>
      let r := rstrip s' in
      match r with
      | EmptyString => if is_space c then EmptyString else String c EmptyString
      | _ => String c r
      end
  end.

(** [s.strip()]. *)
Definition strip (s : string) : string := rstrip (lstrip s).

(** [str(z)] of a Python int. *)
Definition str_Z (z : Z) : string :=
  if (z <? 0)%Z then "-" ++ str_nat (Z.to_nat (- z)) else str_nat (Z.to_nat z).

(** [" ".join(args)]. *)
Definition join_space (args : list string) : string := String.concat " " args.

(* ------------------------------------------------------------------ *)
(** ** Effects of a handler *)

(** A job handed to [context.job_queue.run_once(alarm_callback, when,
    chat_id=..., name=..., data={'type': ...})]. *)
Record job := mkJob {
  job_when : nat;          (* delay in seconds *)
  job_chat_id : Z;
  job_name : string;
  job_type : string        (* job.data['type'] *)
}.

(** What a handler does, in order. *)
Inductive effect :=
  | Reply (text : string)                 (* update.message.reply_text *)
  | SendMessage (chat_id : Z) (text : string)  (* context.bot.send_message *)
  | RunOnce (j : job).                    (* context.job_queue.run_once *)

(* ------------------------------------------------------------------ *)
(** ** Pomodoro timer *)

Definition check_mark : string := "✅".

(** [alarm_callback]: fired once by the job queue with [context.job = j]. *)
Definition alarm_callback (j : job) : list effect :=
  [SendMessage (job_chat_id j)
     ("**DING DING!** Your " ++ job_type j ++
      " timer is finished! Time for a well-deserved break or move on to the next task.")].

(** [duration_minutes]: a leading digit argument, else the default 25. *)
Definition duration_minutes_of (user_input : list string) : nat :=
  match user_input with
  | a :: _ => if isdigit a then int_of_string a else 25%nat
  | [] => 25%nat
  end.

(** [duration_seconds = 10 if duration_minutes == 25 else duration_minutes * 60] *)
Definition resolve_delay (duration_minutes : nat) : nat :=
  (if duration_minutes =? 25 then 10 else duration_minutes * 60)%nat.

Definition pomodoro_min_msg : string := "The minimum timer duration is 5 seconds.".

Definition pomodoro_usage_msg : string :=
  "Usage: /pomodoro [minutes] or just /pomodoro (for 25 minutes).".

Definition pomodoro_confirm_msg (duration_minutes : nat) : string :=
  check_mark ++ " Timer set! You are now focusing for " ++ str_nat duration_minutes ++
  " minutes. I'll notify you when time's up!".

(** [pomodoro_command] on an ASCII first argument: there [isdigit] implies
    that [int] succeeds, so the [except (IndexError, ValueError)] branch does
    not arise. [pomodoro_command_py] is the handler on any argument. *)
Definition pomodoro_command (chat_id : Z) (user_input : list string) : list effect :=
  let duration_minutes := duration_minutes_of user_input in
  let duration_seconds := resolve_delay duration_minutes in
  if (duration_seconds <? 5)%nat then [Reply pomodoro_min_msg]
  else
    [RunOnce (mkJob duration_seconds chat_id (str_Z chat_id)
                    (str_nat duration_minutes ++ "-minute study"));
     Reply (pomodoro_confirm_msg duration_minutes)].

(* ------------------------------------------------------------------ *)
(** ** To-do list *)

(** [user_tasks: Dict[int, List[str]]]. *)
Abbreviation task_map := (gmap Z (list string)).

Definition nl : string := String (ascii_of_nat 10) EmptyString.

Definition add_usage_msg : string :=
  "Please provide the task description after the command, e.g., `/tasks_add Read Chapter 3`".

Definition add_confirm_msg (task_text : string) (count : nat) : string :=
  "📝 Task added: **" ++ task_text ++ "** (Task #" ++ str_nat count ++ ")".

(** [tasks_add_command]: returns the replies and the new [user_tasks]. *)
Definition tasks_add_command (user_id : Z) (args : list string) (user_tasks : task_map)
    : list effect * task_map :=
  let task_text := strip (join_space args) in
  if String.eqb task_text "" then ([Reply add_usage_msg], user_tasks)
  else
    (* if user_id not in user_tasks: user_tasks[user_id] = [] *)
    let cur := match user_tasks !! user_id with Some l => l | None => [] end in
    (* user_tasks[user_id].append(task_text) *)
    let l' := (cur ++ [task_text])%list in
    ([Reply (add_confirm_msg task_text (length l'))], <[user_id := l']> user_tasks).

Definition list_empty_msg : string :=
  "🎉 Your to-do list is empty! Ready to add some new study goals?".

Definition list_header : string := "📚 **Your Current Study Tasks:**" ++ nl ++ nl.

(** The line [f"{i}. {task}\n"] of [enumerate(tasks, 1)]. *)
Definition task_line (i : nat) (task : string) : string :=
  str_nat i ++ ". " ++ task ++ nl.

Fixpoint task_lines (i : nat) (tasks : list string) : list string :=
  match tasks with
  | [] => []
  | t :: ts => task_line i t :: task_lines (S i) ts
  end.

(** [tasks_list_command]: reads [user_tasks] and leaves it as it is. *)
Definition tasks_list_command (user_id : Z) (user_tasks : task_map)
    : list effect * task_map :=
  match user_tasks !! user_id with
  | None | Some [] => ([Reply list_empty_msg], user_tasks)
  | Some l => ([Reply (list_header ++ String.concat "" (task_lines 1 l))], user_tasks)
  end.

Definition done_usage_msg : string :=
  "Usage: /tasks_done [number of task to complete]. Use /tasks_list to see numbers.".
Definition done_empty_msg : string := "Your list is empty, nothing to mark as done!".
Definition done_range_msg : string :=
  "That task number doesn't exist. Check /tasks_list for current numbers.".
Definition done_error_msg : string :=
  "An error occurred. Make sure you entered a valid number.".
Definition done_ok_msg (completed_task : string) : string :=
  check_mark ++ " Great job! You completed: **" ++ completed_task ++ "**".

(** [tasks_done_command] on an ASCII first argument ([tasks_done_command_py]
    is the handler on any argument). [list.pop] out of range would raise
    [IndexError], caught by [except Exception]; the bounds test makes that
    branch dead. *)
Definition tasks_done_command (user_id : Z) (args : list string) (user_tasks : task_map)
    : list effect * task_map :=
  match args with
  | a :: _ =>
      if negb (isdigit a) then ([Reply done_usage_msg], user_tasks)
      else
        let task_index := (Z.of_nat (int_of_string a) - 1)%Z in
        match user_tasks !! user_id with
        | None | Some [] => ([Reply done_empty_msg], user_tasks)
        | Some l =>
            if ((0 <=? task_index) && (task_index <? Z.of_nat (length l)))%Z then
              match l !! Z.to_nat task_index with
              | Some completed_task =>
                  ([Reply (done_ok_msg completed_task)],
                   <[user_id := delete (Z.to_nat task_index) l]> user_tasks)
              | None => ([Reply done_error_msg], user_tasks)
              end
            else ([Reply done_range_msg], user_tasks)
        end
  | [] => ([Reply done_usage_msg], user_tasks)
  end.

(* ------------------------------------------------------------------ *)
(** ** Quotes *)

Definition quotes : list string :=
  [ "The mind is not a vessel to be filled, but a fire to be kindled. - Plutarch";
    "The beautiful thing about learning is that no one can take it away from you. - B.B. King";
    "The only way to do great work is to love what you do. - Steve Jobs";
    "Strive for progress, not perfection.";
    "Today's actions are tomorrow's results." ].

(** [random.choice(quotes)] draws an index [r] with [r < len(quotes)];
    the draw is a parameter of the model. *)
Definition get_motivational_quote (r : nat) : string := nth r quotes "".

Definition quote_reply (quote : string) : string :=
  "💡 **Motivation Boost:**" ++ nl ++ nl ++ "_" ++ quote ++ "_".

Definition quote_command (r : nat) : list effect :=
  [Reply (quote_reply (get_motivational_quote r))].

(* ------------------------------------------------------------------ *)
(** ** Fallback text handler and storage path *)

Definition response_phrases : list string :=
  [ "Got it! That sounds interesting. Need to start a /pomodoro to focus on it?";
    "I'm listening! Don't forget to add that to your /tasks_list if it's a To-Do.";
    "Thanks for sharing! What's the next study step?";
    "Understood. If you need a quick break, try the /quote command!" ].

(** [text_message_handler]: [random.choice(response_phrases)] with the drawn
    index [r < len(response_phrases)] as a parameter. *)
Definition text_message_handler (r : nat) : list effect :=
  [Reply (nth r response_phrases "")].

(** [get_task_path(user_id) = str(user_id)]. *)
Definition get_task_path (user_id : Z) : string := str_Z user_id.

(* ------------------------------------------------------------------ *)
(** ** Python's Unicode-aware [str.isdigit()] and [int()]

    [context.args] are Python [str]s; a Rocq [string] holds their UTF-8
    encoding. [str.isdigit()] and [int()] look at code points, and accept
    more than ASCII: ['²'] passes [isdigit()] but [int()] rejects it, while
    ['٠'] or ['١٢'] pass both. The handlers [pomodoro_command] and
    [tasks_done_command] above read the first argument with the ASCII
    [isdigit] and [int_of_string]; the handlers below read it as Python does,
    including the [except] branches, and agree with them on ASCII arguments
    (see [pomodoro_command_py_ascii] and [tasks_done_command_py_ascii]). *)

(** Decoding of a UTF-8 byte string into code points. The bytes always come
    from a Python [str], so they are well formed. *)
Fixpoint utf8_decode (s : string) : list N :=
  match s with
  | EmptyString => []
  | String c1 s1 =>
      let b1 := N_of_ascii c1 in
      if (b1 <? 128)%N then b1 :: utf8_decode s1
      else if (b1 <? 224)%N then
        match s1 with
        | String c2 s2 =>
            ((b1 - 192) * 64 + (N_of_ascii c2 - 128))%N :: utf8_decode s2
        | _ => []
        end
      else if (b1 <? 240)%N then
        match s1 with
        | String c2 (String c3 s3) =>
            (((b1 - 224) * 64 + (N_of_ascii c2 - 128)) * 64 + (N_of_ascii c3 - 128))%N
              :: utf8_decode s3
        | _ => []
        end
      else
        match s1 with
        | String c2 (String c3 (String c4 s4)) =>
            ((((b1 - 240) * 64 + (N_of_ascii c2 - 128)) * 64 + (N_of_ascii c3 - 128)) * 64
               + (N_of_ascii c4 - 128))%N :: utf8_decode s4
        | _ => []
        end
  end.

(** Code points [c] with [chr(c).isdigit()] (Unicode 14.0.0, Python 3.11),
    as inclusive ranges. *)
Definition digit_ranges : list (N * N) :=
  [(48, 57); (178, 179); (185, 185); (1632, 1641); (1776, 1785);
   (1984, 1993); (2406, 2415); (2534, 2543); (2662, 2671); (2790, 2799);
   (2918, 2927); (3046, 3055); (3174, 3183); (3302, 3311); (3430, 3439);
   (3558, 3567); (3664, 3673); (3792, 3801); (3872, 3881); (4160, 4169);
   (4240, 4249); (4969, 4977); (6112, 6121); (6160, 6169); (6470, 6479);
   (6608, 6618); (6784, 6793); (6800, 6809); (6992, 7001); (7088, 7097);
   (7232, 7241); (7248, 7257); (8304, 8304); (8308, 8313); (8320, 8329);
   (9312, 9320); (9332, 9340); (9352, 9360); (9450, 9450); (9461, 9469);
   (9471, 9471); (10102, 10110); (10112, 10120); (10122, 10130); (42528, 42537);
   (43216, 43225); (43264, 43273); (43472, 43481); (43504, 43513); (43600, 43609);
   (44016, 44025); (65296, 65305); (66720, 66729); (68160, 68163); (68912, 68921);
   (69216, 69224); (69714, 69722); (69734, 69743); (69872, 69881); (69942, 69951);
   (70096, 70105); (70384, 70393); (70736, 70745); (70864, 70873); (71248, 71257);
   (71360, 71369); (71472, 71481); (71904, 71913); (72016, 72025); (72784, 72793);
   (73040, 73049); (73120, 73129); (92768, 92777); (92864, 92873); (93008, 93017);
   (120782, 120831); (123200, 123209); (123632, 123641); (125264, 125273); (127232, 127242);
   (130032, 130041)]%N.

(** Code points [z] with [unicodedata.decimal(chr(z)) == 0]: each starts a
    run [z .. z+9] of the decimal digits 0 .. 9 ([str.isdecimal()]). *)
Definition decimal_zeros : list N :=
  [48; 1632; 1776; 1984; 2406; 2534; 2662; 2790;
   2918; 3046; 3174; 3302; 3430; 3558; 3664; 3792;
   3872; 4160; 4240; 6112; 6160; 6470; 6608; 6784;
   6800; 6992; 7088; 7232; 7248; 42528; 43216; 43264;
   43472; 43504; 43600; 44016; 65296; 66720; 68912; 69734;
   69872; 69942; 70096; 70384; 70736; 70864; 71248; 71360;
   71472; 71904; 72016; 72784; 73040; 73120; 92768; 92864;
   93008; 120782; 120792; 120802; 120812; 120822; 123200; 123632;
   125264; 130032]%N.

(** [chr(c).isdigit()]. *)
Definition cp_isdigit (c : N) : bool :=
  existsb (fun r : N * N => ((fst r <=? c) && (c <=? snd r))%N) digit_ranges.

(** [unicodedata.decimal(chr(c))], [None] for a non-decimal character. *)
Fixpoint decimal_in (zeros : list N) (c : N) : option nat :=
  match zeros with
  | [] => None
  | z :: zs => if ((z <=? c) && (c <=? z + 9))%N then Some (N.to_nat (c - z)) else decimal_in zs c
  end.

Definition cp_decimal (c : N) : option nat := decimal_in decimal_zeros c.

(** [s.isdigit()] on a Python [str]. *)
Definition py_isdigit (s : string) : bool :=
  match utf8_decode s with
  | [] => false
  | cps => forallb cp_isdigit cps
  end.

Fixpoint decimal_acc (acc : nat) (cps : list N) : option nat :=
  match cps with
  | [] => Some acc
  | c :: cs =>
      match cp_decimal c with
      | Some d => decimal_acc (acc * 10 + d)%nat cs
      | None => None
      end
  end.

(** [int(s)] for a string [s] with [s.isdigit()]: such a string has no sign,
    space or underscore, and [int()] maps each Unicode decimal digit to its
    value and raises [ValueError] ([None]) on any other character. (The
    4300-digit limit of [int()] is out of reach: a chat message is at most
    4096 characters long.) *)
Definition py_int_of_digits (s : string) : option nat := decimal_acc 0 (utf8_decode s).

(** [duration_minutes] as the code computes it; [None] when [int()] raises
    [ValueError] (an [IndexError] cannot occur: [user_input[0]] is read only
    when [user_input] is non-empty). *)
Definition py_duration_minutes (user_input : list string) : option nat :=
  match user_input with
  | a :: _ => if py_isdigit a then py_int_of_digits a else Some 25%nat
  | [] => Some 25%nat
  end.

(** The body of [pomodoro_command] once [duration_minutes] is known. *)
Definition pomodoro_schedule (chat_id : Z) (duration_minutes : nat) : list effect :=
  let duration_seconds := resolve_delay duration_minutes in
  if (duration_seconds <? 5)%nat then [Reply pomodoro_min_msg]
  else
    [RunOnce (mkJob duration_seconds chat_id (str_Z chat_id)
                    (str_nat duration_minutes ++ "-minute study"));
     Reply (pomodoro_confirm_msg duration_minutes)].

(** [pomodoro_command] with Python's [isdigit()] and [int()], and its
    [except (IndexError, ValueError)] usage reply. *)
Definition pomodoro_command_py (chat_id : Z) (user_input : list string) : list effect :=
  match py_duration_minutes user_input with
  | None => [Reply pomodoro_usage_msg]
  | Some duration_minutes => pomodoro_schedule chat_id duration_minutes
  end.

(** [tasks_done_command] with Python's [isdigit()] and [int()]; a
    [ValueError] of [int()] is caught by [except Exception], which logs it
    (not modelled) and replies [done_error_msg]. *)
Definition tasks_done_command_py (user_id : Z) (args : list string) (user_tasks : task_map)
    : list effect * task_map :=
  match args with
  | a :: _ =>
      if negb (py_isdigit a) then ([Reply done_usage_msg], user_tasks)
      else
        match py_int_of_digits a with
        | None => ([Reply done_error_msg], user_tasks)
        | Some n =>
            let task_index := (Z.of_nat n - 1)%Z in
            match user_tasks !! user_id with
            | None | Some [] => ([Reply done_empty_msg], user_tasks)
            | Some l =>
                if ((0 <=? task_index) && (task_index <? Z.of_nat (length l)))%Z then
                  match l !! Z.to_nat task_index with
                  | Some completed_task =>
                      ([Reply (done_ok_msg completed_task)],
                       <[user_id := delete (Z.to_nat task_index) l]> user_tasks)
                  | None => ([Reply done_error_msg], user_tasks)
                  end
                else ([Reply done_range_msg], user_tasks)
            end
        end
  | [] => ([Reply done_usage_msg], user_tasks)
  end.

(** Every byte below 128: an ASCII string. *)
Fixpoint ascii_only (s : string) : bool :=
  match s with
  | EmptyString => true
  | String c s' => ((N_of_ascii c <? 128)%N && ascii_only s')%bool
  end.

(* ------------------------------------------------------------------ *)
(** ** Observations on handler effects *)

(** The jobs a handler hands to the job queue. *)
Definition jobs_of (effs : list effect) : list job :=
  omap (fun e => match e with RunOnce j => Some j | _ => None end) effs.

(** The effects of [/pomodoro] when the duration falls back to 25. *)
Definition pomodoro_default_effects (chat_id : Z) : list effect :=
  [RunOnce (mkJob 10 chat_id (str_Z chat_id) "25-minute study");
   Reply (pomodoro_confirm_msg 25)].

(** [user_tasks.get(user_id, [])]. *)
Definition tasks_of (user_tasks : task_map) (user_id : Z) : list string :=
  match user_tasks !! user_id with Some l => l | None => [] end.

(** A word of [context.args]: the transport splits the message text on
    whitespace, so each argument is non-empty and has no whitespace. *)
Fixpoint no_space (s : string) : bool :=
  match s with
  | EmptyString => true
  | String c s' => negb (is_space c) && no_space s'
  end.

Definition is_word (s : string) : bool :=
  match s with
  | EmptyString => false
  | _ => no_space s
  end.

(* ------------------------------------------------------------------ *)
(** ** Small examples *)

Example ex_resolve_25 : resolve_delay 25 = 10%nat.
Proof. reflexivity. Qed.
Example ex_str_nat : str_nat 120 = "120".
Proof. reflexivity. Qed.
Example ex_int : int_of_string "305" = 305%nat.
Proof. reflexivity. Qed.
Example ex_strip : strip "  ab c  " = "ab c".
Proof. reflexivity. Qed.
Example ex_pomodoro_default :
  pomodoro_command 7 [] =
  [RunOnce (mkJob 10 7 "7" "25-minute study"); Reply (pomodoro_confirm_msg 25)].
Proof. reflexivity. Qed.
Example ex_pomodoro_zero : pomodoro_command 7 ["0"] = [Reply pomodoro_min_msg].
Proof. reflexivity. Qed.
Example ex_pomodoro_superscript :
  pomodoro_command_py 7 ["²"] = [Reply pomodoro_usage_msg].
Proof. vm_compute. reflexivity. Qed.
Example ex_pomodoro_arabic_zero :
  pomodoro_command_py 7 ["٠"] = [Reply pomodoro_min_msg].
Proof. vm_compute. reflexivity. Qed.
Example ex_done_superscript :
  tasks_done_command_py 1 ["²"] (<[1%Z := ["a"]]> ∅) =
  ([Reply done_error_msg], <[1%Z := ["a"]]> ∅).
Proof. vm_compute. reflexivity. Qed.
Example ex_scenario :
  let m1 := snd (tasks_add_command 1 ["Read"; "Chapter"; "3"] ∅) in
  let m2 := snd (tasks_add_command 1 ["Do"; "homework"] m1) in
  let m3 := snd (tasks_done_command 1 ["1"] m2) in
  m3 !! 1%Z = Some ["Do homework"].
Proof. vm_compute. reflexivity. Qed.

(* ------------------------------------------------------------------ *)
(** ** Pomodoro timer: properties *)

Local Close Scope string_scope.

Lemma pomodoro_command_cases chat_id args :
  let m := duration_minutes_of args in
  (resolve_delay m < 5 /\ pomodoro_command chat_id args = [Reply pomodoro_min_msg]) \/
  (5 <= resolve_delay m /\
   pomodoro_command chat_id args =
     [RunOnce (mkJob (resolve_delay m) chat_id (str_Z chat_id) (str_nat m ++ "-minute study")%string);
      Reply (pomodoro_confirm_msg m)]).
Proof.
  cbv zeta. unfold pomodoro_command.
  destruct (Nat.ltb_spec (resolve_delay (duration_minutes_of args)) 5); [left | right]; auto.
Qed.

Lemma pomodoro_scheduled chat_id args j :
  In (RunOnce j) (pomodoro_command chat_id args) ->
  5 <= resolve_delay (duration_minutes_of args) /\
  j = mkJob (resolve_delay (duration_minutes_of args)) chat_id (str_Z chat_id)
            (str_nat (duration_minutes_of args) ++ "-minute study")%string.
Proof.
  destruct (pomodoro_command_cases chat_id args) as [[_ ->] | [Hle ->]]; simpl.
  - intros [H | []]. discriminate.
  - intros [H | [H | []]]; [injection H as <-; auto | discriminate].
Qed.

(** C1: every scheduled job waits 10 seconds when the requested minute count
    [m] (explicit or the default) is 25, and [m * 60] seconds otherwise; in
    particular [resolve_delay 25 = 10] and [resolve_delay 5 = 300]. *)
Theorem pomodoro_delay_mapping (chat_id : Z) (args : list string) (j : job) :
  In (RunOnce j) (pomodoro_command chat_id args) ->
  let m := duration_minutes_of args in
  (m = 25 -> job_when j = 10) /\ (m <> 25 -> job_when j = m * 60) /\
  resolve_delay 25 = 10 /\ resolve_delay 5 = 300.
Proof.
  intros Hin. destruct (pomodoro_scheduled _ _ _ Hin) as [_ ->]. cbv zeta; simpl.
  unfold resolve_delay. repeat split; intros Hm.
  - now rewrite Hm.
  - now apply Nat.eqb_neq in Hm as ->.
Qed.

Lemma pomodoro_delay_mapping_witness :
  In (RunOnce (mkJob 300 7 "7"%string "5-minute study"%string)) (pomodoro_command 7 ["5"%string]) /\
  job_when (mkJob 300 7 "7"%string "5-minute study"%string) = 5 * 60.
Proof.
  assert (H : In (RunOnce (mkJob 300 7 "7"%string "5-minute study"%string)) (pomodoro_command 7 ["5"%string]))
    by (simpl; left; reflexivity).
  split; [exact H |].
  destruct (pomodoro_delay_mapping 7 ["5"%string] _ H) as [_ [Hne _]].
  apply Hne. simpl. discriminate.
Defined.

(** C2 (as stated, fails): an explicit argument that is not a number,
    ["abc"], draws no usage message; a 25-minute job is scheduled. *)
Lemma pomodoro_non_numeric_not_rejected :
  ~ In (Reply pomodoro_usage_msg) (pomodoro_command_py 7 ["abc"%string]) /\
  jobs_of (pomodoro_command_py 7 ["abc"%string]) = [mkJob 10 7 "7"%string "25-minute study"%string].
Proof. split; [vm_compute; intuition discriminate | reflexivity]. Qed.

(** C2 (amended): with no argument, or a first argument that fails
    [isdigit()] (["abc"], ["-3"]), the requested duration falls back to 25
    minutes and the timer is scheduled with no usage message. A first
    argument that passes [isdigit()] and that [int()] reads (decimal digits
    of any script) gives the requested minute count; one that passes
    [isdigit()] but that [int()] rejects (["²"]) draws the usage message and
    schedules nothing. *)
Theorem pomodoro_argument_fallback :
  (forall chat_id, pomodoro_command_py chat_id [] = pomodoro_default_effects chat_id) /\
  (forall chat_id a rest, py_isdigit a = false ->
     pomodoro_command_py chat_id (a :: rest) = pomodoro_default_effects chat_id) /\
  (forall chat_id a rest m, py_isdigit a = true -> py_int_of_digits a = Some m ->
     pomodoro_command_py chat_id (a :: rest) = pomodoro_schedule chat_id m) /\
  (forall chat_id a rest, py_isdigit a = true -> py_int_of_digits a = None ->
     pomodoro_command_py chat_id (a :: rest) = [Reply pomodoro_usage_msg]) /\
  pomodoro_default_effects = (fun chat_id => pomodoro_schedule chat_id 25).
Proof.
  repeat split.
  - intros chat_id a rest Ha. unfold pomodoro_command_py, py_duration_minutes.
    now rewrite Ha.
  - intros chat_id a rest m Ha Hm. unfold pomodoro_command_py, py_duration_minutes.
    now rewrite Ha, Hm.
  - intros chat_id a rest Ha Hm. unfold pomodoro_command_py, py_duration_minutes.
    now rewrite Ha, Hm.
Qed.

(** C3: a request whose resolved delay is below 5 seconds (for instance an
    explicit ["0"]) is answered with the minimum-duration message and
    schedules nothing; a request whose resolved delay is at least 5 seconds
    schedules exactly one one-shot job, with that delay. *)
Theorem pomodoro_minimum_delay (chat_id : Z) (args : list string) :
  let d := resolve_delay (duration_minutes_of args) in
  (d < 5 ->
     In (Reply pomodoro_min_msg) (pomodoro_command chat_id args) /\
     jobs_of (pomodoro_command chat_id args) = []) /\
  (5 <= d -> exists j,
     jobs_of (pomodoro_command chat_id args) = [j] /\ job_when j = d) /\
  resolve_delay (duration_minutes_of ["0"%string]) < 5.
Proof.
  cbv zeta.
  destruct (pomodoro_command_cases chat_id args) as [[Hlt ->] | [Hle ->]];
    (split; [intros H | split; [intros H | vm_compute; lia]]); try lia.
  - simpl. auto.
  - eexists. split; reflexivity.
Qed.

(** C4: an accepted request for [m] minutes schedules a job for [chat_id]
    labelled ["{m}-minute study"], confirms [m] (not the delay) to the user,
    and the job, when it fires, sends exactly one message, to [chat_id],
    that contains the label. *)
Theorem pomodoro_job_payload (chat_id : Z) (args : list string) (j : job) :
  In (RunOnce j) (pomodoro_command chat_id args) ->
  let m := duration_minutes_of args in
  job_chat_id j = chat_id /\
  job_type j = (str_nat m ++ "-minute study")%string /\
  In (Reply (pomodoro_confirm_msg m)) (pomodoro_command chat_id args) /\
  pomodoro_confirm_msg m =
    (check_mark ++ " Timer set! You are now focusing for " ++ str_nat m ++
     " minutes. I'll notify you when time's up!")%string /\
  exists pre post,
    alarm_callback j = [SendMessage chat_id (pre ++ job_type j ++ post)%string].
Proof.
  intros Hin. destruct (pomodoro_scheduled _ _ _ Hin) as [Hge Hj].
  cbv zeta. subst j. simpl. repeat split.
  - destruct (pomodoro_command_cases chat_id args) as [[Hlt _] | [_ ->]]; [lia |].
    simpl. auto.
  - do 2 eexists. reflexivity.
Qed.

Lemma pomodoro_job_payload_witness :
  In (RunOnce (mkJob 10 42 "42"%string "25-minute study"%string)) (pomodoro_command 42 []) /\
  job_type (mkJob 10 42 "42"%string "25-minute study"%string) = "25-minute study"%string.
Proof.
  assert (H : In (RunOnce (mkJob 10 42 "42"%string "25-minute study"%string))
                 (pomodoro_command 42 [])) by (simpl; left; reflexivity).
  split; [exact H |].
  exact (proj1 (proj2 (pomodoro_job_payload 42 [] _ H))).
Defined.

(* ------------------------------------------------------------------ *)
(** ** Stripping the joined arguments *)

(** [String.append] does not unfold under [simpl] once stdpp is loaded. *)
Lemma append_cons (c : ascii) (s1 s2 : string) :
  (String c s1 ++ s2)%string = String c (s1 ++ s2)%string.
Proof. reflexivity. Qed.

Lemma append_nil_l (s : string) : ("" ++ s)%string = s.
Proof. reflexivity. Qed.

Lemma rstrip_app (s1 s2 : string) :
  rstrip s2 = s2 -> s2 <> EmptyString -> rstrip (s1 ++ s2)%string = (s1 ++ s2)%string.
Proof.
  intros H2 Hne. induction s1 as [|c s1 IH]; [exact H2 |].
  rewrite append_cons. simpl. rewrite IH.
  destruct (s1 ++ s2)%string eqn:E; [| reflexivity].
  destruct s1, s2; try rewrite append_cons in E; try rewrite append_nil_l in E; congruence.
Qed.

Lemma rstrip_no_space (s : string) : no_space s = true -> rstrip s = s.
Proof.
  induction s as [|c s IH]; simpl; [reflexivity |].
  intros [Hc Hs]%andb_prop. rewrite (IH Hs).
  apply negb_true_iff in Hc. destruct s; [now rewrite Hc | reflexivity].
Qed.

Lemma join_space_cons (a b : string) (rest : list string) :
  join_space (a :: b :: rest) = (a ++ " " ++ join_space (b :: rest))%string.
Proof. reflexivity. Qed.

Lemma rstrip_join_words (args : list string) :
  Forall (fun a => is_word a = true) args -> args <> [] ->
  rstrip (join_space args) = join_space args /\ join_space args <> EmptyString.
Proof.
  induction args as [|a args IH]; intros Hf Hne; [congruence |].
  inversion Hf as [|? ? Ha Hrest]; subst.
  destruct args as [|b args'].
  - simpl. destruct a as [|c t]; [discriminate |].
    split; [now apply rstrip_no_space | discriminate].
  - destruct (IH Hrest ltac:(discriminate)) as [Hr Hn].
    rewrite join_space_cons. split.
    + apply rstrip_app; [| discriminate].
      apply (rstrip_app " " _ Hr Hn).
    + destruct a; [discriminate | simpl; discriminate].
Qed.

Lemma lstrip_join_words (args : list string) :
  Forall (fun a => is_word a = true) args -> args <> [] ->
  lstrip (join_space args) = join_space args.
Proof.
  intros Hf Hne. destruct args as [|a rest]; [congruence |].
  inversion Hf as [|? ? Ha _]; subst.
  destruct a as [|c t]; [discriminate |].
  simpl in Ha. apply andb_prop in Ha as [Hc _]. apply negb_true_iff in Hc.
  destruct rest as [|b rest]; simpl; now rewrite Hc.
Qed.

(** The transport's words come back unchanged from [" ".join(...).strip()]. *)
Lemma strip_join_words (args : list string) :
  Forall (fun a => is_word a = true) args -> args <> [] ->
  strip (join_space args) = join_space args /\ join_space args <> EmptyString.
Proof.
  intros Hf Hne. unfold strip. rewrite (lstrip_join_words _ Hf Hne).
  exact (rstrip_join_words _ Hf Hne).
Qed.

Lemma length_task_lines (i : nat) (l : list string) : length (task_lines i l) = length l.
Proof. revert i. induction l; intros i; simpl; auto. Qed.

Lemma task_lines_app (i : nat) (l1 l2 : list string) :
  task_lines i (l1 ++ l2) = task_lines i l1 ++ task_lines (i + length l1) l2.
Proof.
  revert i. induction l1 as [|t l1 IH]; intros i; simpl.
  - now rewrite Nat.add_0_r.
  - rewrite IH. do 3 f_equal. lia.
Qed.

(* ------------------------------------------------------------------ *)
(** ** To-do list: properties *)

(** C5: when the joined arguments are empty after [strip()] (no argument,
    empty or whitespace-only text), [/tasks_add] replies with its usage
    message and returns [user_tasks] as it was: no entry is created. *)
Theorem tasks_add_blank_rejected (user_id : Z) (args : list string) (user_tasks : task_map) :
  strip (join_space args) = EmptyString ->
  tasks_add_command user_id args user_tasks = ([Reply add_usage_msg], user_tasks).
Proof. intros H. unfold tasks_add_command. now rewrite H. Qed.

Lemma tasks_add_blank_rejected_witness :
  strip (join_space [" "%string]) = EmptyString /\
  tasks_add_command 5 [" "%string] ∅ = ([Reply add_usage_msg], ∅).
Proof.
  split; [reflexivity |].
  apply tasks_add_blank_rejected. reflexivity.
Defined.

(** C6: for words [args] of a message, [/tasks_add] appends the text
    [" ".join(args)] to the user's list (an absent list counting as empty),
    reports the new count [n], and a listing right after shows that text as
    line [n], the last line. *)
Theorem tasks_add_then_list (user_id : Z) (args : list string) (user_tasks : task_map) :
  Forall (fun a => is_word a = true) args -> args <> [] ->
  let text := join_space args in
  let old := tasks_of user_tasks user_id in
  let n := length old + 1 in
  let user_tasks' := snd (tasks_add_command user_id args user_tasks) in
  fst (tasks_add_command user_id args user_tasks) = [Reply (add_confirm_msg text n)] /\
  user_tasks' !! user_id = Some (old ++ [text]) /\
  (old ++ [text]) !! (n - 1) = Some text /\
  tasks_list_command user_id user_tasks' =
    ([Reply (list_header ++ String.concat "" (task_lines 1 (old ++ [text])))%string],
     user_tasks') /\
  task_lines 1 (old ++ [text]) !! (n - 1) = Some (task_line n text) /\
  length (task_lines 1 (old ++ [text])) = n.
Proof.
  intros Hf Hne. destruct (strip_join_words args Hf Hne) as [Hs Hn].
  cbv zeta. unfold tasks_add_command, tasks_of.
  rewrite Hs. destruct (String.eqb_spec (join_space args) EmptyString) as [E | _];
    [contradiction |].
  set (old := match user_tasks !! user_id with Some l => l | None => [] end).
  simpl. rewrite lookup_insert_eq, length_app. simpl.
  replace (length old + 1 - 1) with (length old) by lia.
  repeat split.
  - apply list_lookup_middle. reflexivity.
  - unfold tasks_list_command. rewrite lookup_insert_eq.
    destruct old; reflexivity.
  - rewrite task_lines_app, lookup_app_r, length_task_lines by (rewrite length_task_lines; lia).
    rewrite Nat.sub_diag. simpl. do 2 f_equal. lia.
  - rewrite length_task_lines, length_app. simpl. reflexivity.
Qed.

Lemma tasks_add_then_list_witness :
  Forall (fun a => is_word a = true) ["Read"%string; "Chapter"%string; "3"%string] /\
  snd (tasks_add_command 1 ["Read"%string; "Chapter"%string; "3"%string] ∅) !! 1%Z =
    Some ["Read Chapter 3"%string].
Proof.
  assert (Hf : Forall (fun a => is_word a = true) ["Read"%string; "Chapter"%string; "3"%string])
    by (repeat constructor).
  split; [exact Hf |].
  exact (proj1 (proj2 (tasks_add_then_list 1 _ ∅ Hf ltac:(discriminate)))).
Defined.

Lemma tasks_done_digit (user_id : Z) (a : string) (rest : list string) (user_tasks : task_map) :
  isdigit a = true ->
  tasks_done_command user_id (a :: rest) user_tasks =
  (let task_index := (Z.of_nat (int_of_string a) - 1)%Z in
   match user_tasks !! user_id with
   | None | Some [] => ([Reply done_empty_msg], user_tasks)
   | Some l =>
       if ((0 <=? task_index) && (task_index <? Z.of_nat (length l)))%Z then
         match l !! Z.to_nat task_index with
         | Some completed_task =>
             ([Reply (done_ok_msg completed_task)],
              <[user_id := delete (Z.to_nat task_index) l]> user_tasks)
         | None => ([Reply done_error_msg], user_tasks)
         end
       else ([Reply done_range_msg], user_tasks)
   end).
Proof. intros Ha. unfold tasks_done_command. now rewrite Ha. Qed.

(** C7: [/tasks_done k] with [1 <= k <= length l] removes the [k]-th task
    [t], replies with [t], and keeps the other tasks in order: those before
    keep their number, those after move down by one. *)
Theorem tasks_done_removes_kth (user_id : Z) (a : string) (rest : list string)
    (user_tasks : task_map) (l : list string) :
  isdigit a = true -> user_tasks !! user_id = Some l ->
  1 <= int_of_string a <= length l ->
  let k := int_of_string a in
  let res := tasks_done_command user_id (a :: rest) user_tasks in
  exists t, l !! (k - 1) = Some t /\
    fst res = [Reply (done_ok_msg t)] /\
    snd res !! user_id = Some (take (k - 1) l ++ drop k l) /\
    length (take (k - 1) l ++ drop k l) = length l - 1 /\
    (forall i, i < k - 1 -> (take (k - 1) l ++ drop k l) !! i = l !! i) /\
    (forall i, k - 1 <= i -> (take (k - 1) l ++ drop k l) !! i = l !! S i).
Proof.
  intros Ha Hl Hk. cbv zeta. rewrite (tasks_done_digit _ _ _ _ Ha). cbv zeta.
  remember (int_of_string a) as k eqn:Ek. clear Ek.
  destruct (lookup_lt_is_Some_2 l (k - 1)) as [t Ht]; [lia |].
  assert (Hb : ((0 <=? Z.of_nat k - 1) && (Z.of_nat k - 1 <? Z.of_nat (length l)))%Z = true)
    by (apply andb_true_intro; split; [apply Z.leb_le | apply Z.ltb_lt]; lia).
  assert (Hi : Z.to_nat (Z.of_nat k - 1) = k - 1) by lia.
  assert (Hd : delete (k - 1) l = take (k - 1) l ++ drop k l).
  { rewrite delete_take_drop. do 2 f_equal. lia. }
  exists t. rewrite Hl.
  destruct l as [|x l']; [simpl in Hk; lia |].
  rewrite Hb, Hi, Ht. simpl fst; simpl snd.
  rewrite lookup_insert_eq, <- Hd.
  split; [reflexivity | split; [reflexivity | split; [reflexivity | split]]].
  - apply length_delete. exists t. exact Ht.
  - split; intros i Hi'.
    + now apply list_lookup_delete_lt.
    + now apply list_lookup_delete_ge.
Qed.

Lemma tasks_done_removes_kth_witness :
  exists t, t = "Read Chapter 3"%string /\
    snd (tasks_done_command 1 ["1"%string]
           (<[1%Z := ["Read Chapter 3"%string; "Do homework"%string]]> (∅ : task_map))) !! 1%Z =
      Some ["Do homework"%string].
Proof.
  set (m := <[1%Z := ["Read Chapter 3"%string; "Do homework"%string]]> (∅ : task_map)).
  assert (Hl : m !! 1%Z = Some ["Read Chapter 3"%string; "Do homework"%string])
    by reflexivity.
  assert (Hk : 1 <= int_of_string "1"%string
               <= length ["Read Chapter 3"%string; "Do homework"%string])
    by (vm_compute; lia).
  destruct (tasks_done_removes_kth 1 "1"%string [] m _ eq_refl Hl Hk)
    as [t [Ht [_ [Hm _]]]].
  exists t. simpl in Ht. injection Ht as <-. split; [reflexivity | exact Hm].
Defined.

(** C8: for a numeric argument, [/tasks_done] replies "list is empty" when
    the user has no tasks (absent or empty list) and "task number doesn't
    exist" when the number is outside [1 .. length l] of a non-empty list;
    in both cases [user_tasks] is returned as it was. *)
Theorem tasks_done_failures (user_id : Z) (a : string) (rest : list string)
    (user_tasks : task_map) :
  isdigit a = true ->
  let k := int_of_string a in
  ((user_tasks !! user_id = None \/ user_tasks !! user_id = Some []) ->
     tasks_done_command user_id (a :: rest) user_tasks = ([Reply done_empty_msg], user_tasks)) /\
  (forall l, user_tasks !! user_id = Some l -> l <> [] -> (k < 1 \/ length l < k) ->
     tasks_done_command user_id (a :: rest) user_tasks = ([Reply done_range_msg], user_tasks)).
Proof.
  intros Ha. cbv zeta. rewrite (tasks_done_digit _ _ _ _ Ha). cbv zeta. split.
  - intros [-> | ->]; reflexivity.
  - intros l Hl Hne Hk. rewrite Hl. destruct l as [|x l']; [congruence |].
    assert (Hb : ((0 <=? Z.of_nat (int_of_string a) - 1) &&
                  (Z.of_nat (int_of_string a) - 1 <? Z.of_nat (length (x :: l'))))%Z = false).
    { apply andb_false_iff. destruct Hk as [Hk | Hk];
        [left; apply Z.leb_gt | right; apply Z.ltb_ge]; lia. }
    now rewrite Hb.
Qed.

Lemma tasks_done_failures_witness :
  tasks_done_command 1 ["9"%string]
    (<[1%Z := ["a"%string; "b"%string]]> (∅ : task_map)) =
  ([Reply done_range_msg], <[1%Z := ["a"%string; "b"%string]]> (∅ : task_map)).
Proof.
  set (m := <[1%Z := ["a"%string; "b"%string]]> (∅ : task_map)).
  assert (Hl : m !! 1%Z = Some ["a"%string; "b"%string]) by reflexivity.
  apply (proj2 (tasks_done_failures 1 "9"%string [] m eq_refl) ["a"%string; "b"%string]).
  - exact Hl.
  - discriminate.
  - right. vm_compute. lia.
Defined.

(** C10: [/tasks_add], [/tasks_list] and [/tasks_done] issued by user [u]
    leave the entry of every other user [v] as it was. *)
Theorem tasks_other_users_untouched (u v : Z) (args : list string) (user_tasks : task_map) :
  u <> v ->
  snd (tasks_add_command u args user_tasks) !! v = user_tasks !! v /\
  snd (tasks_list_command u user_tasks) !! v = user_tasks !! v /\
  snd (tasks_done_command u args user_tasks) !! v = user_tasks !! v.
Proof.
  intros Huv. unfold tasks_add_command, tasks_list_command, tasks_done_command.
  repeat split; repeat case_match; simpl; try reflexivity;
    now rewrite lookup_insert_ne.
Qed.

Lemma tasks_other_users_untouched_witness :
  snd (tasks_done_command 1 ["1"%string]
         (<[2%Z := ["x"%string]]> (<[1%Z := ["y"%string]]> (∅ : task_map)))) !! 2%Z = Some ["x"%string].
Proof.
  rewrite (proj2 (proj2 (tasks_other_users_untouched 1 2 ["1"%string]
             (<[2%Z := ["x"%string]]> (<[1%Z := ["y"%string]]> (∅ : task_map))) ltac:(lia)))).
  vm_compute. reflexivity.
Defined.

(* ------------------------------------------------------------------ *)
(** ** Quotes: properties *)

(** C9 (as stated, fails): the reply to [/quote] is not itself one of the
    five quotes; it carries a header and italic markers around the quote. *)
Lemma quote_reply_not_bare :
  quote_command 0 = [Reply (quote_reply (get_motivational_quote 0))] /\
  ~ In (quote_reply (get_motivational_quote 0)) quotes.
Proof. split; [reflexivity | vm_compute; intuition discriminate]. Qed.

(** C9 (amended): whatever index [random.choice] draws, the single reply to
    [/quote] is the fixed header, a blank line, and one of the five quotes
    between underscores. *)
Theorem quote_reply_wraps_member (r : nat) :
  r < length quotes ->
  exists q, In q quotes /\
    quote_command r =
      [Reply ("💡 **Motivation Boost:**" ++ nl ++ nl ++ "_" ++ q ++ "_")%string].
Proof.
  intros Hr. exists (get_motivational_quote r). split; [| reflexivity].
  apply nth_In. exact Hr.
Qed.

Lemma quote_reply_wraps_member_witness :
  exists q, In q quotes /\
    quote_command 4 =
      [Reply ("💡 **Motivation Boost:**" ++ nl ++ nl ++ "_" ++ q ++ "_")%string].
Proof. apply quote_reply_wraps_member. vm_compute. lia. Defined.

(* ------------------------------------------------------------------ *)
(** ** Decimal printing and parsing of numbers *)

Lemma int_acc_string_of_uint (d : Decimal.uint) (acc : nat) :
  int_acc acc (NilEmpty.string_of_uint d) = Nat.of_uint_acc d acc.
Proof.
  revert acc. induction d; intros acc; simpl; rewrite ?IHd, ?Nat.tail_mul_spec;
    try reflexivity; f_equal; lia.
Qed.

Lemma all_digits_string_of_uint (d : Decimal.uint) :
  all_digits (NilEmpty.string_of_uint d) = true.
Proof. induction d; simpl; auto. Qed.

Lemma to_uint_not_nil (n : nat) : Nat.to_uint n <> Decimal.Nil.
Proof.
  destruct n as [|m]; [discriminate |].
  intros H. pose proof (DecimalNat.Unsigned.of_to (S m)) as E.
  rewrite H in E. discriminate.
Qed.

Lemma int_of_str_nat (n : nat) : int_of_string (str_nat n) = n.
Proof.
  unfold int_of_string, str_nat. rewrite int_acc_string_of_uint.
  apply DecimalNat.Unsigned.of_to.
Qed.

Lemma isdigit_str_nat (n : nat) : isdigit (str_nat n) = true.
Proof.
  unfold isdigit, str_nat. pose proof (to_uint_not_nil n) as H.
  pose proof (all_digits_string_of_uint (Nat.to_uint n)) as Hd.
  destruct (Nat.to_uint n); [contradiction | ..]; exact Hd.
Qed.

Lemma isdigit_minus (s : string) : isdigit (String "-"%char s) = false.
Proof. reflexivity. Qed.

Lemma str_nat_inj (a b : nat) : str_nat a = str_nat b -> a = b.
Proof.
  intros H. apply (f_equal int_of_string) in H. now rewrite !int_of_str_nat in H.
Qed.

(** X1: [get_task_path] (and so the job name [str(chat_id)] of a timer)
    separates users: different ids, negative ones included, give different
    strings. *)
Theorem get_task_path_injective (u v : Z) :
  u <> v -> get_task_path u <> get_task_path v.
Proof.
  intros Huv H. apply Huv. unfold get_task_path, str_Z in H.
  destruct (Z.ltb_spec u 0), (Z.ltb_spec v 0).
  - change ("-" ++ ?x)%string with (String "-"%char x) in H.
    injection H as H. apply str_nat_inj in H. lia.
  - change ("-" ++ ?x)%string with (String "-"%char x) in H.
    apply (f_equal isdigit) in H. rewrite isdigit_minus, isdigit_str_nat in H. discriminate.
  - change ("-" ++ ?x)%string with (String "-"%char x) in H.
    apply (f_equal isdigit) in H. rewrite isdigit_minus, isdigit_str_nat in H. discriminate.
  - apply str_nat_inj in H. lia.
Qed.

Lemma get_task_path_injective_witness :
  get_task_path (-12) <> get_task_path 12.
Proof. apply get_task_path_injective. lia. Defined.

(** X2: a task number as [/tasks_add] prints it ([f"{n}"]) passes the
    [isdigit()] test of [/tasks_done] and [int()] reads it back as [n]. *)
Theorem task_number_roundtrip (n : nat) :
  isdigit (str_nat n) = true /\ int_of_string (str_nat n) = n.
Proof. split; [apply isdigit_str_nat | apply int_of_str_nat]. Qed.

(** X3: completing the number that [/tasks_add] just reported removes the
    task just added: the user's list is back to what it was (a user who had
    no entry is left with an empty list). *)
Theorem tasks_add_then_done (user_id : Z) (args : list string) (rest : list string)
    (user_tasks : task_map) :
  strip (join_space args) <> EmptyString ->
  let old := tasks_of user_tasks user_id in
  let text := strip (join_space args) in
  let n := length old + 1 in
  fst (tasks_add_command user_id args user_tasks) = [Reply (add_confirm_msg text n)] /\
  tasks_done_command user_id (str_nat n :: rest) (snd (tasks_add_command user_id args user_tasks)) =
    ([Reply (done_ok_msg text)], <[user_id := old]> user_tasks).
Proof.
  intros Hne. cbv zeta. unfold tasks_add_command, tasks_of.
  destruct (String.eqb_spec (strip (join_space args)) EmptyString) as [E | _];
    [contradiction |].
  set (old := match user_tasks !! user_id with Some l => l | None => [] end).
  set (text := strip (join_space args)).
  simpl fst; simpl snd. rewrite length_app. simpl length. split; [reflexivity |].
  rewrite (tasks_done_digit _ _ _ _ (isdigit_str_nat _)), int_of_str_nat.
  cbv zeta. rewrite lookup_insert_eq.
  assert (Hb : ((0 <=? Z.of_nat (length old + 1) - 1) &&
                (Z.of_nat (length old + 1) - 1 <? Z.of_nat (length (old ++ [text]))))%Z = true).
  { rewrite length_app. simpl length.
    apply andb_true_intro; split; [apply Z.leb_le | apply Z.ltb_lt]; lia. }
  assert (Hi : Z.to_nat (Z.of_nat (length old + 1) - 1) = length old) by lia.
  destruct (old ++ [text]) as [|x l'] eqn:El.
  - destruct old; discriminate.
  - rewrite Hb, Hi, <- El, list_lookup_middle by reflexivity.
    rewrite delete_middle, app_nil_r, insert_insert_eq. reflexivity.
Qed.

Lemma tasks_add_then_done_witness :
  strip (join_space ["Read"%string]) <> EmptyString /\
  tasks_done_command 1 [str_nat 1]
    (snd (tasks_add_command 1 ["Read"%string] (∅ : task_map))) =
    ([Reply (done_ok_msg "Read"%string)], <[1%Z := []]> (∅ : task_map)).
Proof.
  assert (H : strip (join_space ["Read"%string]) <> EmptyString) by discriminate.
  split; [exact H |].
  exact (proj2 (tasks_add_then_done 1 ["Read"%string] [] ∅ H)).
Defined.

(** The four outcomes of [tasks_done_command] (first argument read as
    ASCII). *)
Lemma tasks_done_ascii_cases (user_id : Z) (args : list string) (user_tasks : task_map) :
  let res := tasks_done_command user_id args user_tasks in
  (res = ([Reply done_usage_msg], user_tasks) /\
     forall a rest, args = a :: rest -> isdigit a = false) \/
  (res = ([Reply done_empty_msg], user_tasks) /\ tasks_of user_tasks user_id = []) \/
  (res = ([Reply done_range_msg], user_tasks) /\
     exists a rest, args = a :: rest /\
       (int_of_string a < 1 \/ length (tasks_of user_tasks user_id) < int_of_string a)) \/
  (exists a rest l t, args = a :: rest /\ isdigit a = true /\
     user_tasks !! user_id = Some l /\
     1 <= int_of_string a <= length l /\ l !! (int_of_string a - 1) = Some t /\
     res = ([Reply (done_ok_msg t)], <[user_id := delete (int_of_string a - 1) l]> user_tasks)).
Proof.
  cbv zeta. destruct args as [|a rest].
  - left. split; [reflexivity | intros ? ? [=]].
  - destruct (isdigit a) eqn:Ha.
    2:{ left. unfold tasks_done_command. rewrite Ha. split; [reflexivity |].
        intros ? ? [= -> _]. exact Ha. }
    rewrite (tasks_done_digit _ _ _ _ Ha). cbv zeta. unfold tasks_of.
    destruct (user_tasks !! user_id) as [l|] eqn:Hl.
    2:{ right; left. split; reflexivity. }
    destruct l as [|x l'].
    { right; left. split; reflexivity. }
    set (k := int_of_string a). set (l := x :: l').
    destruct (((0 <=? Z.of_nat k - 1) && (Z.of_nat k - 1 <? Z.of_nat (length l)))%Z) eqn:Hb.
    + apply andb_true_iff in Hb as [H1 H2].
      apply Z.leb_le in H1. apply Z.ltb_lt in H2.
      assert (Hi : Z.to_nat (Z.of_nat k - 1) = k - 1) by lia.
      rewrite Hi. destruct (lookup_lt_is_Some_2 l (k - 1)) as [t Ht]; [lia |].
      rewrite Ht. do 3 right. exists a, rest, l, t. repeat split; auto; lia.
    + right; right; left. split; [reflexivity |]. exists a, rest. split; [reflexivity |].
      apply andb_false_iff in Hb as [H | H];
        [apply Z.leb_gt in H | apply Z.ltb_ge in H]; lia.
Qed.

(** X5: [/tasks_done] never adds or reorders tasks: afterwards the user's
    list is a sublist of the list before, with the same length or one less. *)
Theorem tasks_done_sublist (user_id : Z) (args : list string) (user_tasks : task_map) :
  let after := tasks_of (snd (tasks_done_command user_id args user_tasks)) user_id in
  let before := tasks_of user_tasks user_id in
  sublist after before /\ (length after = length before \/ length after + 1 = length before).
Proof.
  cbv zeta.
  destruct (tasks_done_ascii_cases user_id args user_tasks)
    as [[-> _] | [[-> _] | [[-> _] | (a & rest & l & t & _ & _ & Hl & Hk & Ht & ->)]]];
    simpl snd; try (split; [reflexivity | left; reflexivity]).
  unfold tasks_of. rewrite lookup_insert_eq, Hl. split.
  - apply sublist_delete.
  - right. rewrite length_delete by (exists t; exact Ht). lia.
Qed.

(** X6: [/tasks_add] requests of two different users commute: the task map
    is the same whichever is handled first. *)
Theorem tasks_add_commute (u v : Z) (args1 args2 : list string) (user_tasks : task_map) :
  u <> v ->
  snd (tasks_add_command v args2 (snd (tasks_add_command u args1 user_tasks))) =
  snd (tasks_add_command u args1 (snd (tasks_add_command v args2 user_tasks))).
Proof.
  intros Huv. unfold tasks_add_command.
  destruct (String.eqb (strip (join_space args1)) ""),
           (String.eqb (strip (join_space args2)) ""); simpl; try reflexivity.
  rewrite !lookup_insert_ne by congruence.
  apply insert_insert_ne. congruence.
Qed.

Lemma tasks_add_commute_witness :
  snd (tasks_add_command 2 ["b"%string] (snd (tasks_add_command 1 ["a"%string] (∅ : task_map)))) =
  snd (tasks_add_command 1 ["a"%string] (snd (tasks_add_command 2 ["b"%string] (∅ : task_map)))).
Proof. apply tasks_add_commute. lia. Defined.

Lemma task_lines_lookup (i0 : nat) (l : list string) (i : nat) (t : string) :
  l !! i = Some t -> task_lines i0 l !! i = Some (task_line (i0 + i) t).
Proof.
  revert i0 i. induction l as [|x l IH]; intros i0 i H; [discriminate |].
  destruct i as [|i]; simpl in *.
  - injection H as ->. now rewrite Nat.add_0_r.
  - rewrite (IH (S i0) i H). do 2 f_equal. lia.
Qed.

(** X7: [/tasks_list] never changes [user_tasks]; it replies "list is empty"
    for an absent or empty list, and otherwise sends the header followed by
    one line per task, the task at position [i] (from 0) on the line
    numbered [i + 1]. *)
Theorem tasks_list_layout (user_id : Z) (user_tasks : task_map) :
  snd (tasks_list_command user_id user_tasks) = user_tasks /\
  (tasks_of user_tasks user_id = [] ->
     fst (tasks_list_command user_id user_tasks) = [Reply list_empty_msg]) /\
  (tasks_of user_tasks user_id <> [] ->
     let l := tasks_of user_tasks user_id in
     fst (tasks_list_command user_id user_tasks) =
       [Reply (list_header ++ String.concat "" (task_lines 1 l))%string] /\
     length (task_lines 1 l) = length l /\
     forall i t, l !! i = Some t -> task_lines 1 l !! i = Some (task_line (S i) t)).
Proof.
  unfold tasks_list_command, tasks_of.
  destruct (user_tasks !! user_id) as [[|x l]|]; simpl;
    (split; [reflexivity | split; intros Hne]); try reflexivity; try congruence.
  split; [reflexivity | split; [exact (length_task_lines 1 (x :: l)) |]].
  intros i t Ht. exact (task_lines_lookup 1 (x :: l) i t Ht).
Qed.

Lemma resolve_delay_below_5 (m : nat) : resolve_delay m < 5 <-> m = 0.
Proof. unfold resolve_delay. destruct (Nat.eqb_spec m 25); lia. Qed.

(** X9: whatever index [random.choice] draws, the fallback handler for
    non-command text sends exactly one reply, and that reply is one of its
    four fixed phrases. *)
Theorem text_reply_is_phrase (r : nat) :
  r < length response_phrases ->
  exists p, In p response_phrases /\ text_message_handler r = [Reply p].
Proof. intros Hr. exists (nth r response_phrases ""). split; [now apply nth_In | reflexivity]. Qed.

Lemma text_reply_is_phrase_witness :
  exists p, In p response_phrases /\ text_message_handler 3 = [Reply p].
Proof. apply text_reply_is_phrase. vm_compute. lia. Defined.

(* ------------------------------------------------------------------ *)
(** ** Python's [isdigit()] and [int()] on ASCII arguments *)

Lemma utf8_decode_ascii_cons (c : ascii) (s : string) :
  (N_of_ascii c < 128)%N -> utf8_decode (String c s) = N_of_ascii c :: utf8_decode s.
Proof. intros H. simpl. apply N.ltb_lt in H. now rewrite H. Qed.

Lemma digit_ranges_cons : digit_ranges = (48%N, 57%N) :: tail digit_ranges.
Proof. reflexivity. Qed.

Lemma decimal_zeros_cons : decimal_zeros = 48%N :: tail decimal_zeros.
Proof. reflexivity. Qed.

Lemma existsb_ranges_above (l : list (N * N)) (c : N) :
  forallb (fun r : N * N => (128 <=? fst r)%N) l = true -> (c < 128)%N ->
  existsb (fun r : N * N => ((fst r <=? c) && (c <=? snd r))%N) l = false.
Proof.
  induction l as [|[lo hi] l IH]; simpl; [reflexivity |].
  intros [Hlo Hl]%andb_prop Hc. apply N.leb_le in Hlo.
  rewrite (IH Hl Hc). destruct (N.leb_spec lo c); [lia | reflexivity].
Qed.

Lemma decimal_in_above (zs : list N) (c : N) :
  forallb (fun z => (128 <=? z)%N) zs = true -> (c < 128)%N -> decimal_in zs c = None.
Proof.
  induction zs as [|z zs IH]; simpl; [reflexivity |].
  intros [Hz Hzs]%andb_prop Hc. apply N.leb_le in Hz.
  destruct (N.leb_spec z c); [lia |]. simpl. auto.
Qed.

Lemma cp_isdigit_ascii (c : ascii) :
  (N_of_ascii c < 128)%N -> cp_isdigit (N_of_ascii c) = is_digit_char c.
Proof.
  intros Hc. unfold cp_isdigit, is_digit_char, nat_of_ascii.
  assert (Ht : forallb (fun r : N * N => (128 <=? fst r)%N) (tail digit_ranges) = true)
    by (vm_compute; reflexivity).
  rewrite digit_ranges_cons. cbn [existsb].
  rewrite (existsb_ranges_above _ _ Ht Hc), orb_false_r.
  cbn [fst snd].
  destruct (N.leb_spec 48 (N_of_ascii c)), (N.leb_spec (N_of_ascii c) 57),
           (Nat.leb_spec 48 (N.to_nat (N_of_ascii c))),
           (Nat.leb_spec (N.to_nat (N_of_ascii c)) 57); simpl; lia.
Qed.

Lemma py_isdigit_ascii (s : string) : ascii_only s = true -> py_isdigit s = isdigit s.
Proof.
  intros Hs. unfold py_isdigit, isdigit.
  destruct s as [|c s']; [reflexivity |].
  simpl in Hs. apply andb_prop in Hs as [Hc Hs']. apply N.ltb_lt in Hc.
  rewrite (utf8_decode_ascii_cons _ _ Hc). cbn [forallb all_digits].
  rewrite (cp_isdigit_ascii _ Hc). f_equal.
  clear c Hc. induction s' as [|c s IH]; [reflexivity |].
  simpl in Hs'. apply andb_prop in Hs' as [Hc Hs]. apply N.ltb_lt in Hc.
  rewrite (utf8_decode_ascii_cons _ _ Hc). cbn [forallb all_digits].
  rewrite (cp_isdigit_ascii _ Hc), (IH Hs). reflexivity.
Qed.

Lemma py_int_of_digits_ascii_acc (s : string) (acc : nat) :
  ascii_only s = true -> all_digits s = true ->
  decimal_acc acc (utf8_decode s) = Some (int_acc acc s).
Proof.
  revert acc. induction s as [|c s IH]; intros acc Hs Hd; [reflexivity |].
  simpl in Hs, Hd. apply andb_prop in Hs as [Hc Hs]. apply andb_prop in Hd as [Hdc Hd].
  apply N.ltb_lt in Hc. rewrite (utf8_decode_ascii_cons _ _ Hc). simpl decimal_acc.
  unfold is_digit_char, nat_of_ascii in Hdc.
  apply andb_prop in Hdc as [H1 H2]. apply Nat.leb_le in H1, H2.
  assert (Hdec : cp_decimal (N_of_ascii c) = Some (nat_of_ascii c - 48)%nat).
  { assert (Ht : forallb (fun z => (128 <=? z)%N) (tail decimal_zeros) = true)
      by (vm_compute; reflexivity).
    unfold cp_decimal. rewrite decimal_zeros_cons. cbn [decimal_in].
    rewrite (decimal_in_above _ _ Ht Hc).
    destruct (N.leb_spec 48 (N_of_ascii c)), (N.leb_spec (N_of_ascii c) (48 + 9));
      simpl; try lia. f_equal. unfold nat_of_ascii. lia. }
  rewrite Hdec. simpl int_acc. apply IH; assumption.
Qed.

Lemma py_int_of_digits_ascii (s : string) :
  ascii_only s = true -> isdigit s = true -> py_int_of_digits s = Some (int_of_string s).
Proof.
  intros Hs Hd. unfold py_int_of_digits, int_of_string.
  apply py_int_of_digits_ascii_acc; [exact Hs |].
  destruct s; [discriminate | exact Hd].
Qed.

(** On an ASCII first argument, [pomodoro_command] is the whole handler. *)
Lemma pomodoro_command_py_ascii (chat_id : Z) (args : list string) :
  (forall a rest, args = a :: rest -> ascii_only a = true) ->
  pomodoro_command_py chat_id args = pomodoro_command chat_id args.
Proof.
  intros Ha. destruct args as [|a rest]; [reflexivity |].
  specialize (Ha a rest eq_refl).
  unfold pomodoro_command_py, py_duration_minutes, pomodoro_command, duration_minutes_of.
  rewrite (py_isdigit_ascii _ Ha). destruct (isdigit a) eqn:Hd; [| reflexivity].
  rewrite (py_int_of_digits_ascii _ Ha Hd). reflexivity.
Qed.

(** On an ASCII first argument, [tasks_done_command] is the whole handler. *)
Lemma tasks_done_command_py_ascii (user_id : Z) (args : list string) (user_tasks : task_map) :
  (forall a rest, args = a :: rest -> ascii_only a = true) ->
  tasks_done_command_py user_id args user_tasks = tasks_done_command user_id args user_tasks.
Proof.
  intros Ha. destruct args as [|a rest]; [reflexivity |].
  specialize (Ha a rest eq_refl).
  unfold tasks_done_command_py, tasks_done_command.
  rewrite (py_isdigit_ascii _ Ha). destruct (isdigit a) eqn:Hd; [| reflexivity].
  rewrite (py_int_of_digits_ascii _ Ha Hd). reflexivity.
Qed.

(* ------------------------------------------------------------------ *)
(** ** The handlers with Python's [isdigit()] and [int()] *)


Lemma pomodoro_schedule_cases (chat_id : Z) (m : nat) :
  (m = 0 /\ pomodoro_schedule chat_id m = [Reply pomodoro_min_msg]) \/
  (m <> 0 /\ exists j, pomodoro_schedule chat_id m = [RunOnce j; Reply (pomodoro_confirm_msg m)]).
Proof.
  unfold pomodoro_schedule.
  destruct (Nat.ltb_spec (resolve_delay m) 5) as [H | H];
    [left | right]; pose proof (resolve_delay_below_5 m); split; eauto; lia.
Qed.

Lemma py_duration_cases (args : list string) :
  ((forall a rest, args = a :: rest -> py_isdigit a = false) /\
     py_duration_minutes args = Some 25) \/
  (exists a rest, args = a :: rest /\ py_isdigit a = true /\
     py_duration_minutes args = py_int_of_digits a).
Proof.
  destruct args as [|a rest].
  - left. split; [intros ? ? [=] | reflexivity].
  - simpl. destruct (py_isdigit a) eqn:Ha.
    + right. exists a, rest. auto.
    + left. split; [intros ? ? [= -> _]; exact Ha | reflexivity].
Qed.

(** X8: [/pomodoro] replies with the minimum-duration message exactly when
    its first argument passes [isdigit()] and reads as 0 (["0"], ["00"],
    ["٠"]); it replies with usage exactly when the first argument passes
    [isdigit()] but [int()] rejects it (["²"]); in every other case it
    schedules a job. *)
Theorem pomodoro_rejects_only_zero (chat_id : Z) (args : list string) :
  (pomodoro_command_py chat_id args = [Reply pomodoro_min_msg] <->
     exists a rest, args = a :: rest /\ py_isdigit a = true /\ py_int_of_digits a = Some 0) /\
  (pomodoro_command_py chat_id args = [Reply pomodoro_usage_msg] <->
     exists a rest, args = a :: rest /\ py_isdigit a = true /\ py_int_of_digits a = None) /\
  (jobs_of (pomodoro_command_py chat_id args) = [] <->
     exists a rest, args = a :: rest /\ py_isdigit a = true /\
       (py_int_of_digits a = None \/ py_int_of_digits a = Some 0)).
Proof.
  unfold pomodoro_command_py.
  destruct (py_duration_cases args) as [[Hno ->] | (a & rest & -> & Ha & ->)].
  - assert (Hn : ~ exists a rest, args = a :: rest /\ py_isdigit a = true)
      by (intros (a & rest & Heq & Ha); rewrite (Hno a rest Heq) in Ha; discriminate).
    destruct (pomodoro_schedule_cases chat_id 25) as [[? _] | [_ [j ->]]]; [lia |].
    repeat split; try discriminate; intros (a & rest & Heq & Ha & _); exfalso; apply Hn; eauto.
  - destruct (py_int_of_digits a) as [m|] eqn:Hm.
    + destruct (pomodoro_schedule_cases chat_id m) as [[-> ->] | [Hm0 [j ->]]].
      * repeat split; try discriminate; eauto 7.
        intros (a' & rest' & [= <- <-] & _ & H). congruence.
      * repeat split; try discriminate;
          intros (a' & rest' & [= <- <-] & _ & H); try destruct H as [H | H];
          rewrite Hm in H; (discriminate || (injection H as H; lia)).
    + repeat split; try discriminate; eauto 7.
      intros (a' & rest' & [= <- <-] & _ & H). congruence.
Qed.
